(** * always_ready_future: a ready value or a captured exception

  Shallow embedding of [always_ready_future.hpp] (the class template
    [always_ready_future<T>], its [void] specialization and
    [detail::try_invoke]) together with the inline executor that
    [saxpy.cpp] drives.

  A C++ function body is a function from the state it can touch to an
    [outcome] and the state it leaves behind. *)

From Stdlib Require Import List Arith Lia Bool String ZArith.
Import ListNotations.

Set Implicit Arguments.

(** ** <exception> *)

(** An exception in flight is an object of some type.  A
    [std::exception_ptr] is a nullable handle to such an object, and is
  itself an object that a throw-expression can take as its operand. *)
Inductive exception : Type :=
| thrown_object (dynamic_type what : string)
| thrown_exception_ptr (p : exception_ptr)
with exception_ptr : Type :=
| null_exception_ptr
| refers_to (x : exception).

(** [std::current_exception()] inside a handler of [x]. *)
Definition current_exception (x : exception) : exception_ptr := refers_to x.

(** The type a handler has to name to catch [x]. *)
Definition dynamic_type_of (x : exception) : string :=
  match x with
  | thrown_object ty _ => ty
  | thrown_exception_ptr _ => "std::exception_ptr"%string
  end.

(** ** Outcomes of a call *)

(** A call returns a value, leaves by an exception, or has no defined
    behaviour (control reaches the closing brace of a function that has
  to return a value, an index is out of range). *)
Inductive outcome (A : Type) : Type :=
| Returns (a : A)
| Throws (x : exception)
| Undefined.

Arguments Throws {A} x.
Arguments Undefined {A}.

Definition raises {A : Type} (r : outcome A) : bool :=
  match r with
  | Throws _ => true
  | _ => false
  end.

(** An expression statement [e;]: the value of [e] is discarded. *)
Definition discard {A : Type} (r : outcome A) : outcome unit :=
  match r with
  | Returns _ => Returns tt
  | Throws x => Throws x
  | Undefined => Undefined
  end.

(** The closing brace of a body whose return type is not [void], reached
  after the statements [r]: there is no value to hand back. *)
Definition end_of_body {A : Type} (r : outcome unit) : outcome A :=
  match r with
  | Returns _ => Undefined
  | Throws x => Throws x
  | Undefined => Undefined
  end.

(** A zero-argument callable acting on the state [W] it captured. *)
Definition callable (W R : Type) : Type := W -> outcome R * W.

(** ** template<class T> class always_ready_future *)

Module always_ready_future.
Section Primary.

Variable T : Type.

(** What T's move constructor leaves in the object it moved from. *)
Variable moved_from : T -> T.

(** [std::experimental::variant<T,std::exception_ptr> value_] *)
Record future : Type := Build { value_ : T + exception_ptr }.

(** [always_ready_future(const T& value) : value_(value)] *)
Definition of_value (value : T) : future := Build (inl value).

(** [always_ready_future(T&& value) : value_(std::move(value))]: the new
    future and what is left of the argument. *)
Definition of_rvalue (value : T) : future * T :=
  (Build (inl value), moved_from value).

(** [always_ready_future(std::exception_ptr e) : value_(e)] *)
Definition of_exception (e : exception_ptr) : future := Build (inr e).

(** [get_visitor::operator()(T& value)]: [return std::move(value);] *)
Definition get_visitor_value (value : T) : outcome T * T :=
  (Returns value, moved_from value).

(** [get_visitor::operator()(std::exception_ptr& e)]: [throw e;] the
    operand is the handle, so the handle is the exception object; the
    [return T();] after it is never reached. *)
Definition get_visitor_exception (e : exception_ptr)
  : outcome T * exception_ptr :=
  (Throws (thrown_exception_ptr e), e).

(** [std::experimental::visit(visitor, v)]: the overload for the live
    alternative, applied to it by reference. *)
Definition visit {R : Type}
    (on_value : T -> outcome R * T)
    (on_exception : exception_ptr -> outcome R * exception_ptr)
    (v : T + exception_ptr) : outcome R * (T + exception_ptr) :=
  match v with
  | inl value => let (r, value') := on_value value in (r, inl value')
  | inr e => let (r, e') := on_exception e in (r, inr e')
  end.

(** [T get() { std::experimental::visit(get_visitor(), value_); }]: the
    visit is an expression statement and the body ends after it. *)
Definition get (self : future) : outcome T * future :=
  let (r, v) := visit get_visitor_value get_visitor_exception (value_ self) in
  (end_of_body (discard r), Build v).

(** [void wait() const {}] *)
Definition wait (self : future) : outcome unit * future :=
  (Returns tt, self).

(** Which alternative of [value_] is live. *)
Definition holds_value (self : future) : bool :=
  match value_ self with inl _ => true | inr _ => false end.

Definition holds_error (self : future) : bool :=
  match value_ self with inl _ => false | inr _ => true end.

(** The member functions a client can call on a future it holds. *)
Inductive operation : Type := call_wait | call_get.

(** One call as a statement of the client: [self.wait();] or
    [self.get();]. *)
Definition apply_operation (self : future) (o : operation)
  : outcome unit * future :=
  match o with
  | call_wait => wait self
  | call_get => let (r, self') := get self in (discard r, self')
  end.

(** The future after a sequence of calls, first call first.  A client can
    catch what a call throws and go on to the next call; once a call has
    no defined behaviour there is no state left to speak of. *)
Fixpoint after (ops : list operation) (self : future) : option future :=
  match ops with
  | [] => Some self
  | o :: ops' =>
      match apply_operation self o with
      | (Undefined, _) => None
      | (_, self') => after ops' self'
      end
  end.

(** [n] calls of [get()] in a row: what each of them did, and the future
    they leave. *)
Fixpoint get_repeatedly (n : nat) (self : future)
  : list (outcome T) * future :=
  match n with
  | 0 => ([], self)
  | S n' =>
      let (r, self') := get self in
      let (rs, self'') := get_repeatedly n' self' in
      (r :: rs, self'')
  end.

End Primary.
End always_ready_future.

(** ** template<> class always_ready_future<void> *)

Module always_ready_future_void.

(** [std::experimental::optional<std::exception_ptr> exception_] *)
Record future : Type := Build { exception_ : option exception_ptr }.

(** [always_ready_future() {}] *)
Definition default : future := Build None.

(** [always_ready_future(std::exception_ptr e) : exception_(e)] *)
Definition of_exception (e : exception_ptr) : future := Build (Some e).

(** [void get() { if(exception_) { throw exception_.value(); } }] *)
Definition get (self : future) : outcome unit * future :=
  match exception_ self with
  | Some e => (Throws (thrown_exception_ptr e), self)
  | None => (Returns tt, self)
  end.

(** [void wait() const {}] *)
Definition wait (self : future) : outcome unit * future :=
  (Returns tt, self).

Definition holds_value (self : future) : bool :=
  match exception_ self with None => true | Some _ => false end.

Definition holds_error (self : future) : bool :=
  match exception_ self with None => false | Some _ => true end.

Inductive operation : Type := call_wait | call_get.

Definition apply_operation (self : future) (o : operation) : future :=
  match o with
  | call_wait => snd (wait self)
  | call_get => snd (get self)
  end.

Definition after (ops : list operation) (self : future) : future :=
  fold_left apply_operation ops self.

Fixpoint get_repeatedly (n : nat) (self : future)
  : list (outcome unit) * future :=
  match n with
  | 0 => ([], self)
  | S n' =>
      let (r, self') := get self in
      let (rs, self'') := get_repeatedly n' self' in
      (r :: rs, self'')
  end.

End always_ready_future_void.

(** ** namespace detail *)

Module detail.
Section TryInvoke.

Variable W : Type.

(** [try_invoke] for a callable whose result is not [void]:
      [try { return always_ready_future<Result>(f()); }
     catch(...) { return always_ready_future<Result>(std::current_exception()); }] *)
Definition try_invoke (R : Type) (moved_from : R -> R) (f : callable W R)
  : callable W (always_ready_future.future R) :=
  fun w =>
    match f w with
    | (Returns v, w') =>
        (Returns (fst (always_ready_future.of_rvalue moved_from v)), w')
    | (Throws x, w') =>
        (Returns (always_ready_future.of_exception R (current_exception x)), w')
    | (Undefined, w') => (Undefined, w')
    end.

(** [try_invoke] for a callable whose result is [void]:
      [try { f(); return always_ready_future<void>(); }
     catch(...) { return always_ready_future<void>(std::current_exception()); }] *)
Definition try_invoke_void (f : callable W unit)
  : callable W always_ready_future_void.future :=
  fun w =>
    match f w with
    | (Returns _, w') => (Returns always_ready_future_void.default, w')
    | (Throws x, w') =>
        (Returns (always_ready_future_void.of_exception (current_exception x)), w')
    | (Undefined, w') => (Undefined, w')
    end.

End TryInvoke.
End detail.

(** ** inline_executor *)

Module inline_executor.

(** What the executor called, in the order it called it. *)
Inductive event : Type :=
| factory_a_called
| factory_b_called
| element_called (i : nat).

Definition event_eq_dec (x y : event) : {x = y} + {x <> y}.
Proof. decide equality. apply Nat.eq_dec. Defined.

Definition is_element (ev : event) : bool :=
  match ev with
  | element_called _ => true
  | _ => false
  end.

Section Executor.

Variable W : Type.

(** Modelled from the spec: [inline_executor::sync_execute] of
    inline_executor.hpp, which is not among the sources.  The callable is
    invoked on the calling thread and its failure propagates to the
    caller (section 4.3). *)
Definition sync_execute (f : callable W unit) : callable W unit := f.

(** Modelled from the spec: [inline_executor::async_execute] of
    inline_executor.hpp, which is not among the sources.  The callable is
    invoked on the calling thread and the result or the captured failure
    comes back in a ready future by way of [detail::try_invoke]
    (section 4.3). *)
Definition async_execute (R : Type) (moved_from : R -> R) (f : callable W R)
  : callable W (always_ready_future.future R) :=
  detail.try_invoke moved_from f.

Definition async_execute_void (f : callable W unit)
  : callable W always_ready_future_void.future :=
  detail.try_invoke_void f.

(** The two shared objects of a bulk call. *)
Variables A B : Type.

(** The element function [f(i, a, b)]: it sees the two shared objects by
    reference, next to the state it captured. *)
Definition element_function : Type := nat -> callable (A * B * W) unit.

(** Modelled from the spec: the element loop of
    [inline_executor::bulk_sync_execute], in index order; the first
    failure ends it (section 4.4).  [count] indices are left, [i] is the
    next one. *)
Fixpoint invoke_elements (f : element_function) (count i : nat)
  : callable (A * B * W * list event) unit :=
  fun st =>
    match count with
    | 0 => (Returns tt, st)
    | S count' =>
        let (shared, log) := st in
        match f i shared with
        | (Returns _, shared') =>
            invoke_elements f count' (S i) (shared', log ++ [element_called i])
        | (Throws x, shared') =>
            (Throws x, (shared', log ++ [element_called i]))
        | (Undefined, shared') =>
            (Undefined, (shared', log ++ [element_called i]))
        end
    end.

(** Modelled from the spec: [inline_executor::bulk_sync_execute] of
    inline_executor.hpp, which is not among the sources.  Each factory is
    called once, before any element; then [f] is called once per index of
    [0, n) with the two objects the factories made; a failure propagates
    to the caller at once (section 4.4). *)
Definition bulk_sync_execute (f : element_function) (n : nat)
    (fa : callable W A) (fb : callable W B)
  : callable (W * list event) unit :=
  fun st =>
    let (w, log) := st in
    match fa w with
    | (Returns a, w1) =>
        match fb w1 with
        | (Returns b, w2) =>
            let (r, st') :=
              invoke_elements f n 0
                (a, b, w2, log ++ [factory_a_called; factory_b_called]) in
            (r, (snd (fst st'), snd st'))
        | (Throws x, w2) =>
            (Throws x, (w2, log ++ [factory_a_called; factory_b_called]))
        | (Undefined, w2) =>
            (Undefined, (w2, log ++ [factory_a_called; factory_b_called]))
        end
    | (Throws x, w1) => (Throws x, (w1, log ++ [factory_a_called]))
    | (Undefined, w1) => (Undefined, (w1, log ++ [factory_a_called]))
    end.

(** Modelled from the spec: [inline_executor::bulk_async_execute] of
    inline_executor.hpp, which is not among the sources.  The same calls
    as [bulk_sync_execute], on the calling thread; the caller gets a ready
    [always_ready_future<void>] that carries a captured failure instead of
    the failure itself (sections 4.4 and 7). *)
Definition bulk_async_execute (f : element_function) (n : nat)
    (fa : callable W A) (fb : callable W B)
  : callable (W * list event) always_ready_future_void.future :=
  detail.try_invoke_void (bulk_sync_execute f n fa fb).

End Executor.
End inline_executor.

(** ** The expression [e.get()] on the future a call handed back *)

Definition get_result (T : Type) (moved_from : T -> T)
    (r : outcome (always_ready_future.future T)) : outcome T :=
  match r with
  | Returns fut => fst (always_ready_future.get moved_from fut)
  | Throws x => Throws x
  | Undefined => Undefined
  end.

Definition get_result_void (r : outcome always_ready_future_void.future)
  : outcome unit :=
  match r with
  | Returns fut => fst (always_ready_future_void.get fut)
  | Throws x => Throws x
  | Undefined => Undefined
  end.

(** ** Clients *)

(** Moving an [int] copies it. *)
Definition int_move (x : Z) : Z := x.

(** [std::runtime_error("boom")] in flight. *)
Definition boom : exception :=
  thrown_object "std::runtime_error" "boom".

(** [[]{ return 7; }] *)
Definition return_seven : callable unit Z :=
  fun w => (Returns 7%Z, w).

(** [[]() -> int { throw std::runtime_error("boom"); }] *)
Definition throw_boom : callable unit Z :=
  fun w => (Throws boom, w).

(** [[]{ throw std::runtime_error("boom"); }] *)
Definition throw_boom_void : callable unit unit :=
  fun w => (Throws boom, w).

(** [z[i] = v] on a [std::vector]; nothing is defined past its end. *)
Fixpoint store (i : nat) (v : Z) (z : list Z) : option (list Z) :=
  match z, i with
  | [], _ => None
  | _ :: rest, 0 => Some (v :: rest)
  | x :: rest, S i' => option_map (cons x) (store i' v rest)
  end.

(** [[&](size_t i, auto, auto){ z[i] = i * 2; }] with [std::ignore] for
    both shared objects, the shape of the element functions of saxpy.cpp. *)
Definition write_doubled_index : inline_executor.element_function (list Z) unit unit :=
  fun i st =>
    let (shared, z) := st in
    match store i (2 * Z.of_nat i) z with
    | Some z' => (Returns tt, (shared, z'))
    | None => (Undefined, st)
    end.

(** [[]{ return std::ignore; }] *)
Definition ignore_factory : callable (list Z) unit :=
  fun w => (Returns tt, w).

(** ** How deep a handle is wrapped *)

(** The number of [std::exception_ptr] layers between a handle or an
    exception object and an exception object of another type. *)
Fixpoint exception_depth (x : exception) : nat :=
  match x with
  | thrown_object _ _ => 0
  | thrown_exception_ptr p => S (exception_ptr_depth p)
  end
with exception_ptr_depth (p : exception_ptr) : nat :=
  match p with
  | null_exception_ptr => 0
  | refers_to x => exception_depth x
  end.

(** [[&]{ return fut.get(); }] for a future [fut] the callable captured
    by reference. *)
Definition forward_get (T : Type) (moved_from : T -> T)
  : callable (always_ready_future.future T) T :=
  always_ready_future.get moved_from.

(** [[&]{ fut.get(); }] on an [always_ready_future<void>]. *)
Definition forward_get_void : callable always_ready_future_void.future unit :=
  always_ready_future_void.get.

(** ** saxpy.cpp *)

Module saxpy.

(** [v[i] = value] on a [std::vector]: [operator[]] does not check its
    index, and nothing is defined past the end. *)
Fixpoint vector_assign (X : Type) (i : nat) (value : X) (v : list X)
  : option (list X) :=
  match v, i with
  | [], _ => None
  | _ :: rest, 0 => Some (value :: rest)
  | first :: rest, S i' => option_map (cons first) (vector_assign i' value rest)
  end.

(** [for(size_t i = first; i < first + count; ++i) body(i);] *)
Fixpoint for_loop (W : Type) (count i : nat) (body : nat -> callable W unit)
  : callable W unit :=
  fun w =>
    match count with
    | 0 => (Returns tt, w)
    | S count' =>
        match body i w with
        | (Returns _, w') => for_loop count' (S i) body w'
        | (Throws e, w') => (Throws e, w')
        | (Undefined, w') => (Undefined, w')
        end
    end.

(** [[]{ return std::ignore; }] *)
Definition return_ignore (W : Type) : callable W unit :=
  fun w => (Returns tt, w).

Section Saxpy.

(** [float], and the value of the expression [a * xi + yi] on it. *)
Variable float : Type.
Variable axpy : float -> float -> float -> float.

(** The statement [z[i] = a * x[i] + y[i];] that every variant runs for
    an index [i]; [x] and [y] are read only, [z] is the vector written. *)
Definition saxpy_statement (a : float) (x y : list float) (i : nat)
  : callable (list float) unit :=
  fun z =>
    match nth_error x i, nth_error y i with
    | Some xi, Some yi =>
        match vector_assign i (axpy a xi yi) z with
        | Some z' => (Returns tt, z')
        | None => (Undefined, z)
        end
    | _, _ => (Undefined, z)
    end.

(** [void for_loop_saxpy(float a, const std::vector<float>& x,
    const std::vector<float>& y, std::vector<float>& z)] *)
Definition for_loop_saxpy (a : float) (x y : list float)
  : callable (list float) unit :=
  for_loop (List.length x) 0 (saxpy_statement a x y).

(** [for_loop_sync_execute_saxpy]: each index goes through
    [exec.sync_execute([&]{ z[i] = a * x[i] + y[i]; })]. *)
Definition for_loop_sync_execute_saxpy (a : float) (x y : list float)
  : callable (list float) unit :=
  for_loop (List.length x) 0
    (fun i => inline_executor.sync_execute (saxpy_statement a x y i)).

(** [for_loop_async_execute_saxpy]: each index goes through
    [exec.async_execute([&]{ z[i] = a * x[i] + y[i]; }).wait()]. *)
Definition for_loop_async_execute_saxpy (a : float) (x y : list float)
  : callable (list float) unit :=
  for_loop (List.length x) 0
    (fun i z =>
       match inline_executor.async_execute_void (saxpy_statement a x y i) z with
       | (Returns fut, z') => (fst (always_ready_future_void.wait fut), z')
       | (Throws e, z') => (Throws e, z')
       | (Undefined, z') => (Undefined, z')
       end).

(** [[&](size_t i, auto, auto){ z[i] = a * x[i] + y[i]; }]: the two
    shared objects are taken by value and not used. *)
Definition saxpy_element (a : float) (x y : list float)
  : inline_executor.element_function (list float) unit unit :=
  fun i st =>
    let (shared, z) := st in
    let (r, z') := saxpy_statement a x y i z in
    (r, (shared, z')).

(** [for_loop_bulk_sync_execute_saxpy]: one call
    [exec.bulk_sync_execute(element, x.size(), ignore, ignore)]. *)
Definition for_loop_bulk_sync_execute_saxpy (a : float) (x y : list float)
  : callable (list float) unit :=
  fun z =>
    let (r, st) :=
      inline_executor.bulk_sync_execute (saxpy_element a x y) (List.length x)
        (return_ignore (W := list float)) (return_ignore (W := list float))
        (z, []) in
    (r, fst st).

(** [for_loop_bulk_async_execute_saxpy]: one call
    [exec.bulk_async_execute(element, x.size(), ignore, ignore).wait()]. *)
Definition for_loop_bulk_async_execute_saxpy (a : float) (x y : list float)
  : callable (list float) unit :=
  fun z =>
    match
      inline_executor.bulk_async_execute (saxpy_element a x y) (List.length x)
        (return_ignore (W := list float)) (return_ignore (W := list float))
        (z, [])
    with
    | (Returns fut, st) => (fst (always_ready_future_void.wait fut), fst st)
    | (Throws e, st) => (Throws e, fst st)
    | (Undefined, st) => (Undefined, fst st)
    end.

(** The vectors of the caller, by address.  A parameter of type
    [std::vector<float>&] is an address, and two parameters can name the
    same vector. *)
Definition memory : Type := list (list float).

(** [z[i] = a * x[i] + y[i];] through the three references: both reads
    come before the write. *)
Definition saxpy_statement_by_reference (a : float) (x y z : nat) (i : nat)
  : callable memory unit :=
  fun m =>
    match nth_error m x, nth_error m y, nth_error m z with
    | Some vx, Some vy, Some vz =>
        match saxpy_statement a vx vy i vz with
        | (Returns _, vz') =>
            match vector_assign z vz' m with
            | Some m' => (Returns tt, m')
            | None => (Undefined, m)
            end
        | (Throws e, _) => (Throws e, m)
        | (Undefined, _) => (Undefined, m)
        end
    | _, _, _ => (Undefined, m)
    end.

(** [for_loop_saxpy(a, x, y, z)] on the caller's vectors; the statement
    changes no size, so [x.size()] is the same at every test of the loop. *)
Definition for_loop_saxpy_by_reference (a : float) (x y z : nat)
  : callable memory unit :=
  fun m =>
    match nth_error m x with
    | Some vx =>
        for_loop (List.length vx) 0 (saxpy_statement_by_reference a x y z) m
    | None => (Undefined, m)
    end.

End Saxpy.
End saxpy.

(** * Properties *)

(** ** get() and wait() on one future *)

Section FutureFacts.

Variable T : Type.
Variable moved_from : T -> T.

Lemma get_holding_value (v : T) :
  always_ready_future.get moved_from (always_ready_future.Build (inl v))
  = (Undefined, always_ready_future.Build (inl (moved_from v))).
Proof. reflexivity. Qed.

Lemma get_holding_exception (e : exception_ptr) :
  always_ready_future.get moved_from (always_ready_future.Build (inr e))
  = (Throws (thrown_exception_ptr e), always_ready_future.Build (inr e)).
Proof. reflexivity. Qed.

Lemma exactly_one_alternative (self : always_ready_future.future T) :
  xorb (always_ready_future.holds_value self)
       (always_ready_future.holds_error self) = true.
Proof. destruct self as [[v | e]]; reflexivity. Qed.

Lemma after_keeps_exception (ops : list always_ready_future.operation)
    (e : exception_ptr) :
  always_ready_future.after moved_from ops (always_ready_future.of_exception T e)
  = Some (always_ready_future.of_exception T e).
Proof.
  induction ops as [| o ops IH]; simpl.
  - reflexivity.
  - destruct o; exact IH.
Qed.

Lemma after_undefined_at_get (ops : list always_ready_future.operation)
    (self : always_ready_future.future T) :
  always_ready_future.holds_value self = true ->
  In always_ready_future.call_get ops ->
  always_ready_future.after moved_from ops self = None.
Proof.
  destruct self as [[v | e]]; [intros _ | discriminate].
  induction ops as [| o ops IH]; simpl.
  - intros [].
  - destruct o; simpl.
    + intros [H | H]; [discriminate | now apply IH].
    + reflexivity.
Qed.

End FutureFacts.

Section VoidFutureFacts.

Lemma void_get_keeps_future (self : always_ready_future_void.future) :
  snd (always_ready_future_void.get self) = self.
Proof. destruct self as [[e |]]; reflexivity. Qed.

Lemma void_after_keeps_future (ops : list always_ready_future_void.operation)
    (self : always_ready_future_void.future) :
  always_ready_future_void.after ops self = self.
Proof.
  unfold always_ready_future_void.after.
  induction ops as [| o ops IH]; simpl.
  - reflexivity.
  - destruct o; simpl.
    + exact IH.
    + rewrite void_get_keeps_future. exact IH.
Qed.

Lemma void_exactly_one_alternative (self : always_ready_future_void.future) :
  xorb (always_ready_future_void.holds_value self)
       (always_ready_future_void.holds_error self) = true.
Proof. destruct self as [[e |]]; reflexivity. Qed.

End VoidFutureFacts.

(** C1, at [always_ready_future<int>(7).get()]: the visitor hands the
    stored 7 to [get()], whose body drops it and ends without a return
    statement, so the call does not return 7 (it returns nothing that is
    defined); the stored value has been moved from all the same. *)
Theorem get_of_seven_returns_nothing :
  always_ready_future.get_visitor_value int_move 7%Z = (Returns 7%Z, 7%Z)
  /\ always_ready_future.get int_move (always_ready_future.of_value 7%Z)
     = (Undefined, always_ready_future.of_value 7%Z)
  /\ fst (always_ready_future.get int_move (always_ready_future.of_value 7%Z))
     <> Returns 7%Z.
Proof.
  repeat split. simpl. discriminate.
Qed.

(** C2, at a future built from the capture of [std::runtime_error("boom")]:
    [get()] of either specialization leaves by an exception whose object is
    the [std::exception_ptr] itself, not the captured [runtime_error]; a
    handler for [std::runtime_error] does not see it. *)
Theorem get_throws_the_handle_not_the_failure :
  let e := current_exception boom in
  fst (always_ready_future.get int_move (always_ready_future.of_exception Z e))
    = Throws (thrown_exception_ptr e)
  /\ fst (always_ready_future_void.get (always_ready_future_void.of_exception e))
    = Throws (thrown_exception_ptr e)
  /\ thrown_exception_ptr e <> boom
  /\ dynamic_type_of boom = "std::runtime_error"%string
  /\ dynamic_type_of (thrown_exception_ptr e) = "std::exception_ptr"%string.
Proof.
  cbv zeta. repeat split. discriminate.
Qed.

(** C3: [wait()] on any future, of either specialization, returns (it
    neither raises nor is undefined), leaves the future as it was, and a
    [get()] after it does what a [get()] without it does. *)
Theorem wait_is_a_no_op :
  forall (T : Type) (moved_from : T -> T)
         (self : always_ready_future.future T)
         (self_void : always_ready_future_void.future),
    always_ready_future.wait self = (Returns tt, self)
    /\ always_ready_future.get moved_from (snd (always_ready_future.wait self))
       = always_ready_future.get moved_from self
    /\ always_ready_future_void.wait self_void = (Returns tt, self_void)
    /\ always_ready_future_void.get (snd (always_ready_future_void.wait self_void))
       = always_ready_future_void.get self_void.
Proof.
  intros. repeat split.
Qed.

(** ** try_invoke *)

Section TryInvokeFacts.

Variables W R : Type.
Variable moved_from : R -> R.

Lemma try_invoke_outcome (f : callable W R) (w : W) :
  fst (detail.try_invoke moved_from f w)
  = match fst (f w) with
    | Returns v => Returns (always_ready_future.of_value v)
    | Throws x =>
        Returns (always_ready_future.of_exception R (current_exception x))
    | Undefined => Undefined
    end.
Proof.
  unfold detail.try_invoke. destruct (f w) as [[v | x |] w']; reflexivity.
Qed.

Lemma try_invoke_state (f : callable W R) (w : W) :
  snd (detail.try_invoke moved_from f w) = snd (f w).
Proof.
  unfold detail.try_invoke. destruct (f w) as [[v | x |] w']; reflexivity.
Qed.

Lemma try_invoke_void_outcome (f : callable W unit) (w : W) :
  fst (detail.try_invoke_void f w)
  = match fst (f w) with
    | Returns _ => Returns always_ready_future_void.default
    | Throws x =>
        Returns (always_ready_future_void.of_exception (current_exception x))
    | Undefined => Undefined
    end.
Proof.
  unfold detail.try_invoke_void. destruct (f w) as [[v | x |] w']; reflexivity.
Qed.

End TryInvokeFacts.

(** C4: whatever the callable does, neither overload of [try_invoke]
    leaves by an exception; when the callable raises [x], the call returns
    a future of the callable's result type that holds the capture of [x]. *)
Theorem try_invoke_never_raises :
  forall (W R : Type) (moved_from : R -> R)
         (f : callable W R) (g : callable W unit) (w : W),
    raises (fst (detail.try_invoke moved_from f w)) = false
    /\ raises (fst (detail.try_invoke_void g w)) = false
    /\ (forall x, fst (f w) = Throws x ->
          fst (detail.try_invoke moved_from f w)
          = Returns (always_ready_future.of_exception R (current_exception x)))
    /\ (forall x, fst (g w) = Throws x ->
          fst (detail.try_invoke_void g w)
          = Returns (always_ready_future_void.of_exception (current_exception x))).
Proof.
  intros W R moved_from f g w.
  rewrite try_invoke_outcome, try_invoke_void_outcome.
  repeat split.
  - destruct (fst (f w)); reflexivity.
  - destruct (fst (g w)); reflexivity.
  - intros x Hx. rewrite Hx. reflexivity.
  - intros x Hx. rewrite Hx. reflexivity.
Qed.

Lemma try_invoke_never_raises_witness :
  fst (detail.try_invoke int_move throw_boom tt)
  = Returns (always_ready_future.of_exception Z (current_exception boom))
  /\ fst (detail.try_invoke_void throw_boom_void tt)
     = Returns (always_ready_future_void.of_exception (current_exception boom)).
Proof.
  destruct (try_invoke_never_raises int_move throw_boom throw_boom_void tt)
    as (_ & _ & Hf & Hg).
  split; [apply Hf | apply Hg]; reflexivity.
Defined.

(** C5, at [try_invoke([]{ return 7; }).get()]: the future holds 7 and
    [get()] ends without returning it.  At a callable that throws
    [std::runtime_error("boom")], [get()] leaves by an exception whose
    object is the [std::exception_ptr] that captured it.  [try_invoke]
    itself raises in neither case. *)
Theorem try_invoke_then_get_loses_the_value :
  fst (return_seven tt) = Returns 7%Z
  /\ fst (detail.try_invoke int_move return_seven tt)
     = Returns (always_ready_future.of_value 7%Z)
  /\ get_result int_move (fst (detail.try_invoke int_move return_seven tt))
     = Undefined
  /\ get_result int_move (fst (detail.try_invoke int_move return_seven tt))
     <> Returns 7%Z
  /\ fst (throw_boom tt) = Throws boom
  /\ get_result int_move (fst (detail.try_invoke int_move throw_boom tt))
     = Throws (thrown_exception_ptr (current_exception boom))
  /\ thrown_exception_ptr (current_exception boom) <> boom.
Proof.
  repeat split; simpl; discriminate.
Qed.

(** C6: [get()] on an [always_ready_future<void>] built from a captured
    failure raises; on a default-constructed one it returns, also after
    any calls of [wait()] and [get()] before it. *)
Theorem void_get_raises_iff_built_from_exception :
  forall (e : exception_ptr) (ops : list always_ready_future_void.operation),
    raises (fst (always_ready_future_void.get
                   (always_ready_future_void.of_exception e))) = true
    /\ always_ready_future_void.get always_ready_future_void.default
       = (Returns tt, always_ready_future_void.default)
    /\ raises (fst (always_ready_future_void.get
                      (always_ready_future_void.after ops
                         always_ready_future_void.default))) = false.
Proof.
  intros e ops. rewrite void_after_keeps_future. repeat split.
Qed.

(** C7, at [always_ready_future<int> fut(7)] followed by [fut.get()]: the
    future is built holding a value and not an error, and sequences of
    [wait()] calls leave it so, but [get()] on it ends without a return
    statement, so a sequence of calls with a [get()] in it has no defined
    behaviour and there is no alternative left that the future could be
    said to hold. *)
Theorem alternative_after_get_is_undefined :
  let fut := always_ready_future.of_value 7%Z in
  always_ready_future.holds_value fut = true
  /\ always_ready_future.holds_error fut = false
  /\ always_ready_future.after int_move
       [always_ready_future.call_wait; always_ready_future.call_wait] fut
     = Some fut
  /\ fst (always_ready_future.apply_operation int_move fut
            always_ready_future.call_get) = Undefined
  /\ always_ready_future.after int_move [always_ready_future.call_get] fut
     = None
  /\ always_ready_future.after int_move
       [always_ready_future.call_wait; always_ready_future.call_get;
        always_ready_future.call_wait] fut
     = None.
Proof.
  cbv zeta. repeat split.
Qed.

(** ** The inline executor *)

Section ExecutorFacts.

Variables W A B : Type.

Lemma invoke_elements_log (f : inline_executor.element_function W A B)
    (count i : nat) (st : A * B * W * list inline_executor.event) :
  fst (inline_executor.invoke_elements f count i st) = Returns tt ->
  snd (snd (inline_executor.invoke_elements f count i st))
  = snd st ++ map inline_executor.element_called (seq i count).
Proof.
  revert i st; induction count as [| count IH]; intros i [shared log]; simpl.
  - intros _. now rewrite app_nil_r.
  - destruct (f i shared) as [[u | x |] shared']; simpl; try discriminate.
    intro H. rewrite (IH _ _ H). simpl. now rewrite <- app_assoc.
Qed.

Lemma bulk_sync_execute_log (f : inline_executor.element_function W A B)
    (n : nat) (fa : callable W A) (fb : callable W B) (w : W) :
  fst (inline_executor.bulk_sync_execute f n fa fb (w, [])) = Returns tt ->
  snd (snd (inline_executor.bulk_sync_execute f n fa fb (w, [])))
  = inline_executor.factory_a_called :: inline_executor.factory_b_called
      :: map inline_executor.element_called (seq 0 n).
Proof.
  unfold inline_executor.bulk_sync_execute.
  destruct (fa w) as [[a | x |] w1]; simpl; try discriminate.
  destruct (fb w1) as [[b | x |] w2]; simpl; try discriminate.
  pose proof (invoke_elements_log f n 0
                (a, b, w2, [inline_executor.factory_a_called;
                            inline_executor.factory_b_called])) as Hlog.
  destruct (inline_executor.invoke_elements f n 0 _) as [r st']; simpl in *.
  intro H. now rewrite (Hlog H).
Qed.

(** When no callable fails or misbehaves, the bulk call returns. *)
Lemma invoke_elements_returns (f : inline_executor.element_function W A B)
    (count i : nat) (st : A * B * W * list inline_executor.event) :
  (forall j shared, fst (f j shared) = Returns tt) ->
  fst (inline_executor.invoke_elements f count i st) = Returns tt.
Proof.
  intro Hf. revert i st; induction count as [| count IH]; intros i [shared log]; simpl.
  - reflexivity.
  - specialize (Hf i shared).
    destruct (f i shared) as [[u | x |] shared']; simpl in Hf; try discriminate.
    apply IH.
Qed.

Lemma bulk_sync_execute_returns (f : inline_executor.element_function W A B)
    (n : nat) (fa : callable W A) (fb : callable W B)
    (st : W * list inline_executor.event) :
  (forall w, exists a, fst (fa w) = Returns a) ->
  (forall w, exists b, fst (fb w) = Returns b) ->
  (forall j shared, fst (f j shared) = Returns tt) ->
  fst (inline_executor.bulk_sync_execute f n fa fb st) = Returns tt.
Proof.
  intros Hfa Hfb Hf. destruct st as [w log].
  unfold inline_executor.bulk_sync_execute.
  destruct (Hfa w) as [a Ha].
  destruct (fa w) as [ra w1]; simpl in Ha; subst ra.
  destruct (Hfb w1) as [b Hb].
  destruct (fb w1) as [rb w2]; simpl in Hb; subst rb.
  pose proof (invoke_elements_returns f n 0
                (a, b, w2, log ++ [inline_executor.factory_a_called;
                                   inline_executor.factory_b_called]) Hf) as Hr.
  destruct (inline_executor.invoke_elements f n 0 _) as [r st']; simpl in *.
  exact Hr.
Qed.

End ExecutorFacts.

Lemma count_occ_elements_factory (l : list nat) (ev : inline_executor.event) :
  inline_executor.is_element ev = false ->
  count_occ inline_executor.event_eq_dec
    (map inline_executor.element_called l) ev = 0.
Proof.
  intro Hev. induction l as [| j l IH]; cbn [map count_occ].
  - reflexivity.
  - destruct (inline_executor.event_eq_dec (inline_executor.element_called j) ev)
      as [Heq | _].
    + subst ev. discriminate.
    + exact IH.
Qed.

Lemma count_occ_elements (l : list nat) (i : nat) :
  count_occ inline_executor.event_eq_dec
    (map inline_executor.element_called l) (inline_executor.element_called i)
  = count_occ Nat.eq_dec l i.
Proof.
  induction l as [| j l IH]; cbn [map count_occ].
  - reflexivity.
  - destruct (inline_executor.event_eq_dec _ _) as [Heq | Hne];
      destruct (Nat.eq_dec j i) as [Hji | Hji].
    + now rewrite IH.
    + injection Heq as Heq. contradiction.
    + subst j. contradiction.
    + exact IH.
Qed.

Lemma count_occ_seq (start len i : nat) :
  count_occ Nat.eq_dec (seq start len) i
  = if (start <=? i) && (i <? start + len) then 1 else 0.
Proof.
  revert start; induction len as [| len IH]; intro start; simpl.
  - destruct (start <=? i) eqn:Hle; simpl; [| reflexivity].
    destruct (i <? start + 0) eqn:Hlt; [| reflexivity].
    apply Nat.leb_le in Hle. apply Nat.ltb_lt in Hlt. lia.
  - rewrite IH. destruct (Nat.eq_dec start i) as [Heq | Hne].
    + subst i.
      replace (S start <=? start) with false by (symmetry; apply Nat.leb_gt; lia).
      rewrite Nat.leb_refl.
      replace (start <? start + S len) with true by (symmetry; apply Nat.ltb_lt; lia).
      reflexivity.
    + destruct (S start <=? i) eqn:H1; destruct (start <=? i) eqn:H2;
        destruct (i <? S start + len) eqn:H3;
        destruct (i <? start + S len) eqn:H4; simpl; try reflexivity;
        repeat match goal with
               | H : (_ <=? _) = true |- _ => apply Nat.leb_le in H
               | H : (_ <=? _) = false |- _ => apply Nat.leb_gt in H
               | H : (_ <? _) = true |- _ => apply Nat.ltb_lt in H
               | H : (_ <? _) = false |- _ => apply Nat.ltb_ge in H
               end; lia.
Qed.

Lemma filter_is_element_elements (l : list nat) :
  filter inline_executor.is_element (map inline_executor.element_called l)
  = map inline_executor.element_called l.
Proof.
  induction l as [| j l IH]; simpl; [reflexivity | now rewrite IH].
Qed.

(** C8: when a call [bulk_sync_execute(f, n, fa, fb)] completes without a
    failure, the executor has called [fa] once, then [fb] once, then [f]
    once for each index of [0, n) and for no other index: [n] element
    calls in all, none of them before the two factory calls.  This holds
    for every [n], zero included. *)
Theorem bulk_sync_execute_invocations :
  forall (W A B : Type) (f : inline_executor.element_function W A B)
         (n : nat) (fa : callable W A) (fb : callable W B) (w : W),
    fst (inline_executor.bulk_sync_execute f n fa fb (w, [])) = Returns tt ->
    let log := snd (snd (inline_executor.bulk_sync_execute f n fa fb (w, []))) in
    count_occ inline_executor.event_eq_dec log inline_executor.factory_a_called = 1
    /\ count_occ inline_executor.event_eq_dec log inline_executor.factory_b_called = 1
    /\ List.length (filter inline_executor.is_element log) = n
    /\ (forall i, i < n ->
          count_occ inline_executor.event_eq_dec log
            (inline_executor.element_called i) = 1)
    /\ (forall i, n <= i ->
          count_occ inline_executor.event_eq_dec log
            (inline_executor.element_called i) = 0)
    /\ (forall before i rest,
          log = before ++ inline_executor.element_called i :: rest ->
          In inline_executor.factory_a_called before
          /\ In inline_executor.factory_b_called before).
Proof.
  intros W A B f n fa fb w Hreturns log. subst log.
  rewrite (bulk_sync_execute_log _ _ _ _ _ Hreturns).
  repeat split.
  - rewrite count_occ_cons_eq by reflexivity.
    rewrite count_occ_cons_neq by discriminate.
    now rewrite count_occ_elements_factory.
  - rewrite count_occ_cons_neq by discriminate.
    rewrite count_occ_cons_eq by reflexivity.
    now rewrite count_occ_elements_factory.
  - cbn [filter inline_executor.is_element].
    now rewrite filter_is_element_elements, length_map, length_seq.
  - intros i Hi.
    rewrite !count_occ_cons_neq by discriminate.
    rewrite count_occ_elements, count_occ_seq.
    replace (i <? 0 + n) with true by (symmetry; apply Nat.ltb_lt; lia).
    reflexivity.
  - intros i Hi.
    rewrite !count_occ_cons_neq by discriminate.
    rewrite count_occ_elements, count_occ_seq.
    replace (i <? 0 + n) with false by (symmetry; apply Nat.ltb_ge; lia).
    now rewrite andb_false_r.
  - destruct before as [| x [| y before]]; simpl in H; try discriminate.
    injection H as Hx _. subst x. now left.
  - destruct before as [| x [| y before]]; simpl in H; try discriminate.
    injection H as _ Hy _. subst y. right. now left.
Qed.

Lemma bulk_sync_execute_invocations_witness :
  inline_executor.bulk_sync_execute write_doubled_index 4
    ignore_factory ignore_factory ([0; 0; 0; 0]%Z, [])
  = (Returns tt,
     ([0; 2; 4; 6]%Z,
      [inline_executor.factory_a_called; inline_executor.factory_b_called;
       inline_executor.element_called 0; inline_executor.element_called 1;
       inline_executor.element_called 2; inline_executor.element_called 3]))
  /\ fst (inline_executor.bulk_sync_execute write_doubled_index 0
            ignore_factory ignore_factory ([], [])) = Returns tt
  /\ count_occ inline_executor.event_eq_dec
       (snd (snd (inline_executor.bulk_sync_execute write_doubled_index 4
                    ignore_factory ignore_factory ([0; 0; 0; 0]%Z, []))))
       inline_executor.factory_a_called = 1
  /\ count_occ inline_executor.event_eq_dec
       (snd (snd (inline_executor.bulk_sync_execute write_doubled_index 0
                    ignore_factory ignore_factory ([], []))))
       inline_executor.factory_b_called = 1.
Proof.
  split; [reflexivity |]. split; [reflexivity |]. split.
  - apply (bulk_sync_execute_invocations write_doubled_index 4
             ignore_factory ignore_factory [0; 0; 0; 0]%Z).
    reflexivity.
  - apply (bulk_sync_execute_invocations write_doubled_index 0
             ignore_factory ignore_factory []).
    reflexivity.
Defined.

(** C9, at [async_execute([]{ return 7; }).get()]: [async_execute]
    returns a future that holds 7 and raises nothing, and [get()] on it
    ends without returning the 7 that a direct call returns.  At a
    callable that throws [std::runtime_error("boom")] nothing escapes
    from [async_execute] either, and [get()] leaves by an exception whose
    object is the capturing [std::exception_ptr], where a direct call
    leaves by the [runtime_error]. *)
Theorem async_execute_then_get_differs_from_direct_call :
  fst (inline_executor.async_execute int_move return_seven tt)
  = Returns (always_ready_future.of_value 7%Z)
  /\ get_result int_move
       (fst (inline_executor.async_execute int_move return_seven tt))
     = Undefined
  /\ get_result int_move
       (fst (inline_executor.async_execute int_move return_seven tt))
     <> fst (return_seven tt)
  /\ raises (fst (inline_executor.async_execute int_move throw_boom tt)) = false
  /\ get_result int_move
       (fst (inline_executor.async_execute int_move throw_boom tt))
     = Throws (thrown_exception_ptr (current_exception boom))
  /\ get_result int_move
       (fst (inline_executor.async_execute int_move throw_boom tt))
     <> fst (throw_boom tt).
Proof.
  repeat split; simpl; discriminate.
Qed.

(** C10: [get()] on a future that holds a captured exception [e], of
    either specialization, leaves the future as it was, so each of any
    number of [get()] calls in a row leaves by the same exception, the one
    carrying the stored [e]. *)
Theorem get_on_exception_is_repeatable :
  forall (T : Type) (moved_from : T -> T) (e : exception_ptr) (n : nat),
    snd (always_ready_future.get moved_from (always_ready_future.of_exception T e))
    = always_ready_future.of_exception T e
    /\ always_ready_future.get_repeatedly moved_from n
         (always_ready_future.of_exception T e)
       = (repeat (Throws (thrown_exception_ptr e)) n,
          always_ready_future.of_exception T e)
    /\ snd (always_ready_future_void.get (always_ready_future_void.of_exception e))
       = always_ready_future_void.of_exception e
    /\ always_ready_future_void.get_repeatedly n
         (always_ready_future_void.of_exception e)
       = (repeat (Throws (thrown_exception_ptr e)) n,
          always_ready_future_void.of_exception e).
Proof.
  intros T moved_from e n.
  unfold always_ready_future.of_exception, always_ready_future_void.of_exception.
  repeat split.
  - induction n as [| n IH]; simpl.
    + reflexivity.
    + now rewrite IH.
  - induction n as [| n IH]; simpl.
    + reflexivity.
    + now rewrite IH.
Qed.

(** ** Further properties of always_ready_future.hpp *)

Lemma exception_ptr_never_wraps_itself (e : exception_ptr) :
  refers_to (thrown_exception_ptr e) <> e.
Proof.
  intro H. apply (f_equal exception_ptr_depth) in H. simpl in H. lia.
Qed.

(** X1: [try_invoke] on a callable without a result leaves the state the
    callable captured exactly as one call of the callable leaves it, and
    the future that comes back holds an error exactly when the callable
    raised. *)
Theorem try_invoke_void_wraps_one_call :
  forall (W : Type) (g : callable W unit) (w : W),
    snd (detail.try_invoke_void g w) = snd (g w)
    /\ (forall fut, fst (detail.try_invoke_void g w) = Returns fut ->
          always_ready_future_void.holds_error fut = raises (fst (g w))).
Proof.
  intros W g w. unfold detail.try_invoke_void.
  destruct (g w) as [[u | x |] w']; split; try reflexivity;
    simpl; intros fut H; inversion H; reflexivity.
Qed.

Lemma try_invoke_void_wraps_one_call_witness :
  always_ready_future_void.holds_error
    (always_ready_future_void.of_exception (current_exception boom))
  = raises (fst (throw_boom_void tt)).
Proof.
  apply (proj2 (try_invoke_void_wraps_one_call throw_boom_void tt)).
  reflexivity.
Defined.

(** X2: for a callable without a result, [try_invoke(g).get()] returns
    when a direct call of [g] returns, raises when a direct call raises,
    and what it raises is the [std::exception_ptr] that captured [g]'s
    exception. *)
Theorem try_invoke_void_then_get :
  forall (W : Type) (g : callable W unit) (w : W),
    get_result_void (fst (detail.try_invoke_void g w))
    = match fst (g w) with
      | Returns _ => Returns tt
      | Throws x => Throws (thrown_exception_ptr (current_exception x))
      | Undefined => Undefined
      end
    /\ raises (get_result_void (fst (detail.try_invoke_void g w)))
       = raises (fst (g w)).
Proof.
  intros W g w. rewrite try_invoke_void_outcome.
  destruct (fst (g w)); split; reflexivity.
Qed.

(** X3: a failure does not survive being forwarded.  When a callable
    calls [get()] on a future that holds the handle [e] and is itself run
    through [try_invoke], the future that comes back holds a handle to an
    exception object that wraps [e]: one [std::exception_ptr] layer
    deeper, and never [e] again. *)
Theorem forwarding_get_wraps_the_handle :
  forall (T : Type) (moved_from : T -> T) (e : exception_ptr),
    let wrapped := current_exception (thrown_exception_ptr e) in
    fst (detail.try_invoke moved_from (forward_get moved_from)
           (always_ready_future.of_exception T e))
    = Returns (always_ready_future.of_exception T wrapped)
    /\ fst (detail.try_invoke_void forward_get_void
              (always_ready_future_void.of_exception e))
       = Returns (always_ready_future_void.of_exception wrapped)
    /\ exception_ptr_depth wrapped = S (exception_ptr_depth e)
    /\ wrapped <> e.
Proof.
  intros T moved_from e wrapped. subst wrapped.
  repeat split. apply exception_ptr_never_wraps_itself.
Qed.

(** ** saxpy.cpp *)

Section VectorFacts.

Variable X : Type.

Lemma vector_assign_in_range (i : nat) (value : X) (v : list X) :
  i < List.length v ->
  saxpy.vector_assign i value v = Some (firstn i v ++ value :: skipn (S i) v).
Proof.
  revert i; induction v as [| first rest IH]; intros i Hi; simpl in Hi.
  - lia.
  - destruct i as [| i]; simpl.
    + reflexivity.
    + rewrite IH by lia. reflexivity.
Qed.

Lemma vector_assign_past_the_end (i : nat) (value : X) (v : list X) :
  List.length v <= i -> saxpy.vector_assign i value v = None.
Proof.
  revert i; induction v as [| first rest IH]; intros i Hi; simpl in Hi.
  - destruct i; reflexivity.
  - destruct i as [| i]; simpl.
    + lia.
    + rewrite IH by lia. reflexivity.
Qed.

Lemma length_after_assign (i : nat) (value : X) (v : list X) :
  i < List.length v ->
  List.length (firstn i v ++ value :: skipn (S i) v) = List.length v.
Proof.
  intro Hi. rewrite length_app, length_firstn. cbn [List.length].
  rewrite length_skipn. lia.
Qed.

Lemma for_loop_ext (W : Type) (body body' : nat -> callable W unit) :
  (forall i w, body i w = body' i w) ->
  forall count i w,
    saxpy.for_loop count i body w = saxpy.for_loop count i body' w.
Proof.
  intros Hbody count. induction count as [| count IH]; intros i w; simpl.
  - reflexivity.
  - rewrite Hbody. destruct (body' i w) as [[u | e |] w']; auto.
Qed.

End VectorFacts.

Section SaxpyFacts.

Variable float : Type.
Variable axpy : float -> float -> float -> float.
Variable a : float.
Variables x y : list float.

(** The elements that the loop writes, in index order. *)
Let written : list float :=
  map (fun xy => axpy a (fst xy) (snd xy)) (combine x y).

Lemma saxpy_statement_in_range (i : nat) (z : list float) :
  i < List.length x -> i < List.length y -> i < List.length z ->
  exists xi yi,
    nth_error x i = Some xi /\ nth_error y i = Some yi
    /\ saxpy.saxpy_statement axpy a x y i z
       = (Returns tt, firstn i z ++ axpy a xi yi :: skipn (S i) z).
Proof.
  intros Hx Hy Hz.
  destruct (nth_error x i) as [xi |] eqn:Ex;
    [| apply nth_error_None in Ex; lia].
  destruct (nth_error y i) as [yi |] eqn:Ey;
    [| apply nth_error_None in Ey; lia].
  exists xi, yi. repeat split.
  unfold saxpy.saxpy_statement. rewrite Ex, Ey.
  now rewrite vector_assign_in_range.
Qed.

Lemma saxpy_statement_out_of_range (i : nat) (z : list float) :
  List.length y <= i \/ List.length z <= i ->
  fst (saxpy.saxpy_statement axpy a x y i z) = Undefined.
Proof.
  intro H. unfold saxpy.saxpy_statement.
  destruct (nth_error x i) as [xi |]; [| reflexivity].
  destruct (nth_error y i) as [yi |] eqn:Ey; [| reflexivity].
  destruct H as [H | H].
  - apply nth_error_None in H. congruence.
  - now rewrite vector_assign_past_the_end.
Qed.

Lemma saxpy_statement_never_raises (i : nat) (z : list float) :
  fst (saxpy.saxpy_statement axpy a x y i z) = Returns tt
  \/ fst (saxpy.saxpy_statement axpy a x y i z) = Undefined.
Proof.
  unfold saxpy.saxpy_statement.
  destruct (nth_error x i); [| now right].
  destruct (nth_error y i); [| now right].
  destruct (saxpy.vector_assign _ _ _); [now left | now right].
Qed.

Lemma written_from (i : nat) (xi yi : float) :
  nth_error x i = Some xi -> nth_error y i = Some yi ->
  skipn i written = axpy a xi yi :: skipn (S i) written.
Proof.
  subst written. revert i.
  generalize y as ys. induction x as [| x0 xs IH]; intros ys i Hx Hy.
  - destruct i; discriminate.
  - destruct ys as [| y0 ys]; [destruct i; discriminate |].
    destruct i as [| i]; simpl in *.
    + now inversion Hx; inversion Hy; subst.
    + now apply IH.
Qed.

Lemma for_loop_saxpy_from (count i : nat) (z : list float) :
  i + count = List.length x ->
  List.length x <= List.length y ->
  List.length x <= List.length z ->
  saxpy.for_loop count i (saxpy.saxpy_statement axpy a x y) z
  = (Returns tt, firstn i z ++ skipn i written ++ skipn (List.length x) z).
Proof.
  revert i z; induction count as [| count IH]; intros i z Hi Hy Hz; simpl.
  - replace (skipn i written) with (@nil float).
    + simpl. replace (List.length x) with i by lia.
      now rewrite firstn_skipn.
    + symmetry. apply skipn_all2. subst written.
      rewrite length_map, length_combine. lia.
  - destruct (@saxpy_statement_in_range i z) as (xi & yi & Ex & Ey & Hbody);
      try lia.
    rewrite Hbody.
    rewrite IH; [| lia | lia | rewrite length_after_assign; lia].
    f_equal.
    rewrite (written_from i Ex Ey).
    set (v := axpy a xi yi).
    replace (firstn (S i) (firstn i z ++ v :: skipn (S i) z))
      with (firstn i z ++ [v]).
    + replace (skipn (List.length x) (firstn i z ++ v :: skipn (S i) z))
        with (skipn (List.length x) z).
      * now rewrite <- app_assoc.
      * rewrite skipn_app, length_firstn.
        replace (Nat.min i (List.length z)) with i by lia.
        rewrite (skipn_all2 (firstn i z)) by (rewrite length_firstn; lia).
        replace (List.length x - i) with (S count) by lia.
        rewrite skipn_cons, skipn_skipn, app_nil_l. f_equal. lia.
    + rewrite firstn_app, length_firstn.
      replace (Nat.min i (List.length z)) with i by lia.
      replace (S i - i) with 1 by lia.
      rewrite firstn_firstn.
      replace (Nat.min (S i) i) with i by lia.
      reflexivity.
Qed.

End SaxpyFacts.

Section SaxpyLoopFacts.

Variable float : Type.
Variable axpy : float -> float -> float -> float.
Variable a : float.
Variables x y : list float.

Lemma for_loop_saxpy_runs_off (count i : nat) (z : list float) :
  i + count = List.length x ->
  i <= Nat.min (List.length y) (List.length z) ->
  Nat.min (List.length y) (List.length z) < List.length x ->
  fst (saxpy.for_loop count i (saxpy.saxpy_statement axpy a x y) z) = Undefined.
Proof.
  revert i z; induction count as [| count IH]; intros i z Hi Hlo Hhi; simpl.
  - lia.
  - destruct (Nat.eq_dec i (Nat.min (List.length y) (List.length z))) as [Heq | Hne].
    + assert (Hout : fst (saxpy.saxpy_statement axpy a x y i z) = Undefined)
        by (apply saxpy_statement_out_of_range; lia).
      destruct (saxpy.saxpy_statement axpy a x y i z) as [[u | e |] z'];
        simpl in Hout; try discriminate; reflexivity.
    + destruct (@saxpy_statement_in_range float axpy a x y i z)
        as (xi & yi & _ & _ & Hbody); try lia.
      rewrite Hbody. apply IH; rewrite ?length_after_assign; lia.
Qed.

Lemma nth_error_written (i : nat) (xi yi : float) :
  nth_error x i = Some xi -> nth_error y i = Some yi ->
  nth_error (map (fun xy => axpy a (fst xy) (snd xy)) (combine x y)) i
  = Some (axpy a xi yi).
Proof.
  revert i. generalize y as ys.
  induction x as [| x0 xs IH]; intros ys i Hx Hy.
  - destruct i; discriminate.
  - destruct ys as [| y0 ys]; [destruct i; discriminate |].
    destruct i as [| i]; simpl in *.
    + now inversion Hx; inversion Hy; subst.
    + now apply IH.
Qed.

End SaxpyLoopFacts.

Lemma for_loop_saxpy_run (float : Type)
    (axpy : float -> float -> float -> float) (a : float)
    (x y z : list float) :
  List.length x <= List.length y ->
  List.length x <= List.length z ->
  saxpy.for_loop_saxpy axpy a x y z
  = (Returns tt,
     map (fun xy => axpy a (fst xy) (snd xy)) (combine x y)
     ++ skipn (List.length x) z).
Proof.
  intros Hy Hz. unfold saxpy.for_loop_saxpy.
  now rewrite (@for_loop_saxpy_from float axpy a x y (List.length x) 0 z).
Qed.

Lemma length_written (float : Type)
    (axpy : float -> float -> float -> float) (a : float) (x y : list float) :
  List.length x <= List.length y ->
  List.length (map (fun xy => axpy a (fst xy) (snd xy)) (combine x y))
  = List.length x.
Proof.
  intro Hy. rewrite length_map, length_combine. lia.
Qed.

(** X5: when [y] and [z] are at least as long as [x], [for_loop_saxpy]
    returns; [z] keeps its size, its first [x.size()] elements are
    [a * x[i] + y[i]] and the elements after them are untouched.  With an
    empty [x] nothing is written. *)
Theorem for_loop_saxpy_result :
  forall (float : Type) (axpy : float -> float -> float -> float)
         (a : float) (x y z : list float),
    List.length x <= List.length y ->
    List.length x <= List.length z ->
    let z' := map (fun xy => axpy a (fst xy) (snd xy)) (combine x y)
              ++ skipn (List.length x) z in
    saxpy.for_loop_saxpy axpy a x y z = (Returns tt, z')
    /\ List.length z' = List.length z
    /\ (forall i xi yi,
          nth_error x i = Some xi -> nth_error y i = Some yi ->
          nth_error z' i = Some (axpy a xi yi))
    /\ (forall i, List.length x <= i -> nth_error z' i = nth_error z i).
Proof.
  intros float axpy a x y z Hy Hz z'. subst z'.
  pose proof (@length_written float axpy a x y Hy) as Hlen.
  repeat split.
  - now apply for_loop_saxpy_run.
  - rewrite length_app, Hlen, length_skipn. lia.
  - intros i xi yi Ex Ey.
    rewrite nth_error_app1
      by (rewrite Hlen; apply nth_error_Some; congruence).
    now apply nth_error_written.
  - intros i Hi.
    rewrite nth_error_app2 by (rewrite Hlen; exact Hi).
    rewrite Hlen, nth_error_skipn. f_equal. lia.
Qed.

Lemma for_loop_saxpy_result_witness :
  saxpy.for_loop_saxpy (fun a xi yi => a * xi + yi)%Z 42%Z
    [7; 7; 7]%Z [13; 13; 13; 1]%Z [0; 0; 0; 5]%Z
  = (Returns tt, [307; 307; 307; 5]%Z)
  /\ saxpy.for_loop_saxpy (fun a xi yi => a * xi + yi)%Z 42%Z [] [] [5]%Z
     = (Returns tt, [5]%Z).
Proof.
  split.
  - apply (@for_loop_saxpy_result Z (fun a xi yi => a * xi + yi)%Z 42%Z
             [7; 7; 7]%Z [13; 13; 13; 1]%Z [0; 0; 0; 5]%Z); simpl; lia.
  - apply (@for_loop_saxpy_result Z (fun a xi yi => a * xi + yi)%Z 42%Z
             [] [] [5]%Z); simpl; lia.
Defined.

(** X6: when [y] or [z] is shorter than [x], [for_loop_saxpy] reads or
    writes past the end of the shorter vector: its behaviour is undefined,
    no exception reports the mismatch. *)
Theorem for_loop_saxpy_size_mismatch :
  forall (float : Type) (axpy : float -> float -> float -> float)
         (a : float) (x y z : list float),
    List.length y < List.length x \/ List.length z < List.length x ->
    fst (saxpy.for_loop_saxpy axpy a x y z) = Undefined.
Proof.
  intros float axpy a x y z H. unfold saxpy.for_loop_saxpy.
  apply for_loop_saxpy_runs_off; lia.
Qed.

Lemma for_loop_saxpy_size_mismatch_witness :
  fst (saxpy.for_loop_saxpy (fun a xi yi => a * xi + yi)%Z 42%Z
         [7; 7; 7]%Z [13; 13; 13]%Z [0; 0]%Z)
  = Undefined.
Proof.
  apply for_loop_saxpy_size_mismatch. right. simpl. lia.
Defined.

(** X7: on vectors of one size [n], [x] filled with one value and [y]
    with another, as [main] builds them, [for_loop_saxpy] leaves every one
    of the [n] elements of [z] equal to [a * x0 + y0], whatever [z] held. *)
Theorem for_loop_saxpy_on_filled_vectors :
  forall (float : Type) (axpy : float -> float -> float -> float)
         (a x0 y0 : float) (n : nat) (z : list float),
    List.length z = n ->
    saxpy.for_loop_saxpy axpy a (repeat x0 n) (repeat y0 n) z
    = (Returns tt, repeat (axpy a x0 y0) n).
Proof.
  intros float axpy a x0 y0 n z Hz.
  rewrite for_loop_saxpy_run by (rewrite ?repeat_length; lia).
  f_equal.
  rewrite repeat_length, skipn_all2, app_nil_r by lia.
  clear. induction n as [| n IH]; simpl; [reflexivity | now rewrite IH].
Qed.

Lemma for_loop_saxpy_on_filled_vectors_witness :
  saxpy.for_loop_saxpy (fun a xi yi => a * xi + yi)%Z 42%Z
    (repeat 7%Z 4) (repeat 13%Z 4) [0; 0; 0; 0]%Z
  = (Returns tt, repeat 307%Z 4).
Proof.
  apply (@for_loop_saxpy_on_filled_vectors Z (fun a xi yi => a * xi + yi)%Z
           42%Z 7%Z 13%Z 4 [0; 0; 0; 0]%Z).
  reflexivity.
Defined.

Lemma for_loop_saxpy_twice (float : Type)
    (axpy : float -> float -> float -> float) (a : float)
    (x y z : list float) :
  List.length x <= List.length y ->
  List.length x <= List.length z ->
  saxpy.for_loop_saxpy axpy a x y (snd (saxpy.for_loop_saxpy axpy a x y z))
  = saxpy.for_loop_saxpy axpy a x y z.
Proof.
  intros Hy Hz.
  pose proof (@length_written float axpy a x y Hy) as Hlen.
  rewrite (for_loop_saxpy_run axpy a x y z Hy Hz). cbn [snd].
  rewrite for_loop_saxpy_run
    by (rewrite ?length_app, ?Hlen, ?length_skipn; lia).
  f_equal. f_equal.
  rewrite skipn_app, Hlen, Nat.sub_diag, skipn_O.
  rewrite skipn_all2 by (rewrite Hlen; lia).
  reflexivity.
Qed.

Section SaxpyExecutorFacts.

Variable float : Type.
Variable axpy : float -> float -> float -> float.
Variable a : float.
Variables x y : list float.

Lemma for_loop_saxpy_never_raises (count i : nat) (z : list float) :
  raises (fst (saxpy.for_loop count i (saxpy.saxpy_statement axpy a x y) z))
  = false.
Proof.
  revert i z; induction count as [| count IH]; intros i z; simpl.
  - reflexivity.
  - destruct (saxpy_statement_never_raises axpy a x y i z) as [H | H];
      destruct (saxpy.saxpy_statement axpy a x y i z) as [[u | e |] z'];
      simpl in H; try discriminate; auto.
Qed.

Lemma async_statement (i : nat) (z : list float) :
  match inline_executor.async_execute_void (saxpy.saxpy_statement axpy a x y i) z with
  | (Returns fut, z') => (fst (always_ready_future_void.wait fut), z')
  | (Throws e, z') => (Throws e, z')
  | (Undefined, z') => (Undefined, z')
  end
  = saxpy.saxpy_statement axpy a x y i z.
Proof.
  unfold inline_executor.async_execute_void, detail.try_invoke_void.
  destruct (saxpy_statement_never_raises axpy a x y i z) as [H | H];
    destruct (saxpy.saxpy_statement axpy a x y i z) as [[[] | e |] z'];
    simpl in H; try discriminate; reflexivity.
Qed.

Lemma invoke_saxpy_elements (count i : nat) (z : list float)
    (log : list inline_executor.event) :
  let run :=
    inline_executor.invoke_elements (saxpy.saxpy_element axpy a x y) count i
      (tt, tt, z, log) in
  (fst run, snd (fst (snd run)))
  = saxpy.for_loop count i (saxpy.saxpy_statement axpy a x y) z.
Proof.
  revert i z log; induction count as [| count IH]; intros i z log; simpl.
  - reflexivity.
  - destruct (saxpy.saxpy_statement axpy a x y i z) as [[u | e |] z'];
      simpl; try reflexivity.
    apply IH.
Qed.

End SaxpyExecutorFacts.

(** X9: with the inline executor modelled as the spec describes it,
    [for_loop_sync_execute_saxpy] and [for_loop_async_execute_saxpy] do to
    [z] what [for_loop_saxpy] does, on every input: the same result when
    the sizes fit, undefined behaviour when they do not. *)
Theorem scalar_executor_variants_agree :
  forall (float : Type) (axpy : float -> float -> float -> float)
         (a : float) (x y z : list float),
    saxpy.for_loop_sync_execute_saxpy axpy a x y z
    = saxpy.for_loop_saxpy axpy a x y z
    /\ saxpy.for_loop_async_execute_saxpy axpy a x y z
       = saxpy.for_loop_saxpy axpy a x y z.
Proof.
  intros float axpy a x y z. split.
  - reflexivity.
  - unfold saxpy.for_loop_async_execute_saxpy, saxpy.for_loop_saxpy.
    apply for_loop_ext. intros i w. apply async_statement.
Qed.

(** X10: with the inline executor modelled as the spec describes it,
    [for_loop_bulk_sync_execute_saxpy] and
    [for_loop_bulk_async_execute_saxpy] do to [z] what [for_loop_saxpy]
    does, on every input. *)
Theorem bulk_executor_variants_agree :
  forall (float : Type) (axpy : float -> float -> float -> float)
         (a : float) (x y z : list float),
    saxpy.for_loop_bulk_sync_execute_saxpy axpy a x y z
    = saxpy.for_loop_saxpy axpy a x y z
    /\ saxpy.for_loop_bulk_async_execute_saxpy axpy a x y z
       = saxpy.for_loop_saxpy axpy a x y z.
Proof.
  intros float axpy a x y z.
  assert (Hsync : saxpy.for_loop_bulk_sync_execute_saxpy axpy a x y z
                  = saxpy.for_loop_saxpy axpy a x y z).
  { unfold saxpy.for_loop_bulk_sync_execute_saxpy, saxpy.for_loop_saxpy,
      inline_executor.bulk_sync_execute, saxpy.return_ignore.
    rewrite <- (invoke_saxpy_elements axpy a x y (List.length x) 0 z
                  ([] ++ [inline_executor.factory_a_called;
                          inline_executor.factory_b_called])).
    cbv zeta.
    destruct (inline_executor.invoke_elements _ _ _ _) as [r st'].
    reflexivity. }
  split; [exact Hsync |].
  pose proof (for_loop_saxpy_never_raises axpy a x y (List.length x) 0 z) as Hnr.
  fold (saxpy.for_loop_saxpy axpy a x y z) in Hnr.
  rewrite <- Hsync in *.
  unfold saxpy.for_loop_bulk_async_execute_saxpy,
    inline_executor.bulk_async_execute, detail.try_invoke_void.
  unfold saxpy.for_loop_bulk_sync_execute_saxpy in *.
  destruct (inline_executor.bulk_sync_execute _ _ _ _ _) as [[[] | e |] st];
    simpl in *; try discriminate; reflexivity.
Qed.

(** ** for_loop_saxpy on vectors that may be one and the same *)

Section AssignFacts.

Variable X : Type.

Lemma vector_assign_reads_back (i : nat) (value : X) (v v' : list X) :
  saxpy.vector_assign i value v = Some v' -> nth_error v' i = Some value.
Proof.
  revert i v'; induction v as [| first rest IH]; intros i v' H.
  - destruct i; discriminate.
  - destruct i as [| i]; simpl in H.
    + now inversion H.
    + destruct (saxpy.vector_assign i value rest) as [rest' |] eqn:E;
        [| discriminate].
      inversion H; subst. simpl. now apply IH.
Qed.

Lemma vector_assign_elsewhere (i j : nat) (value : X) (v v' : list X) :
  saxpy.vector_assign i value v = Some v' -> j <> i ->
  nth_error v' j = nth_error v j.
Proof.
  revert i j v'; induction v as [| first rest IH]; intros i j v' H Hj.
  - destruct i; discriminate.
  - destruct i as [| i]; simpl in H.
    + inversion H; subst. destruct j; [contradiction | reflexivity].
    + destruct (saxpy.vector_assign i value rest) as [rest' |] eqn:E;
        [| discriminate].
      inversion H; subst. destruct j as [| j]; simpl.
      * reflexivity.
      * apply (IH i); [exact E | lia].
Qed.

Lemma vector_assign_overwrites (i : nat) (value value' : X) (v v' : list X) :
  saxpy.vector_assign i value v = Some v' ->
  saxpy.vector_assign i value' v' = saxpy.vector_assign i value' v.
Proof.
  revert i v'; induction v as [| first rest IH]; intros i v' H.
  - destruct i; discriminate.
  - destruct i as [| i]; simpl in H.
    + now inversion H.
    + destruct (saxpy.vector_assign i value rest) as [rest' |] eqn:E;
        [| discriminate].
      inversion H; subst. simpl. now rewrite (IH _ _ E).
Qed.

Lemma vector_assign_same (i : nat) (value : X) (v : list X) :
  nth_error v i = Some value -> saxpy.vector_assign i value v = Some v.
Proof.
  revert i; induction v as [| first rest IH]; intros i H.
  - destruct i; discriminate.
  - destruct i as [| i]; simpl in *.
    + now inversion H.
    + now rewrite IH.
Qed.

Lemma vector_assign_succeeds (i : nat) (value old : X) (v : list X) :
  nth_error v i = Some old ->
  exists v', saxpy.vector_assign i value v = Some v'.
Proof.
  intro H. eexists. apply vector_assign_in_range.
  apply nth_error_Some. congruence.
Qed.

End AssignFacts.

Section ByReferenceFacts.

Variable float : Type.
Variable axpy : float -> float -> float -> float.
Variable a : float.
Variables x y z : nat.
Variables vx vy : list float.

Hypothesis z_is_not_x : z <> x.
Hypothesis z_is_not_y : z <> y.
Hypothesis y_is_long_enough : List.length vx <= List.length vy.

Lemma by_reference_loop (count i : nat) (m : saxpy.memory float)
    (vz : list float) :
  nth_error m x = Some vx -> nth_error m y = Some vy ->
  nth_error m z = Some vz ->
  i + count = List.length vx ->
  List.length vx <= List.length vz ->
  exists m',
    saxpy.vector_assign z
      (snd (saxpy.for_loop count i (saxpy.saxpy_statement axpy a vx vy) vz)) m
    = Some m'
    /\ saxpy.for_loop count i
         (saxpy.saxpy_statement_by_reference axpy a x y z) m
       = (Returns tt, m').
Proof.
  revert i m vz; induction count as [| count IH];
    intros i m vz Hx Hy Hz Hi Hlen; simpl.
  - exists m. split; [now apply vector_assign_same | reflexivity].
  - destruct (@saxpy_statement_in_range float axpy a vx vy i vz)
      as (xi & yi & _ & _ & Hstmt); try lia.
    unfold saxpy.saxpy_statement_by_reference at 1.
    rewrite Hx, Hy, Hz, Hstmt.
    set (vz1 := firstn i vz ++ axpy a xi yi :: skipn (S i) vz).
    destruct (@vector_assign_succeeds _ z vz1 vz m Hz) as [m1 Hm1].
    rewrite Hm1.
    destruct (IH (S i) m1 vz1) as (m' & Hm' & Hloop).
    + rewrite (@vector_assign_elsewhere _ z x vz1 m m1 Hm1); auto.
    + rewrite (@vector_assign_elsewhere _ z y vz1 m m1 Hm1); auto.
    + exact (@vector_assign_reads_back _ z vz1 m m1 Hm1).
    + lia.
    + subst vz1. rewrite length_after_assign; lia.
    + exists m'. split; [| exact Hloop].
      rewrite <- Hm'. symmetry.
      exact (@vector_assign_overwrites _ z vz1 _ m m1 Hm1).
Qed.

End ByReferenceFacts.

(** X8: when [z] is a vector other than [x] and [y] and the sizes fit,
    [for_loop_saxpy] returns, writes [a * x[i] + y[i]] into the first
    [x.size()] elements of [z] and touches no other vector, and running
    it again on what it left changes nothing: the warm-up run and the
    timed runs of [main], which passes three vectors of its own, all
    leave the [z] that the first run left. *)
Theorem for_loop_saxpy_idempotent_on_distinct_vectors :
  forall (float : Type) (axpy : float -> float -> float -> float)
         (a : float) (x y z : nat) (m : saxpy.memory float)
         (vx vy vz : list float),
    nth_error m x = Some vx ->
    nth_error m y = Some vy ->
    nth_error m z = Some vz ->
    z <> x -> z <> y ->
    List.length vx <= List.length vy ->
    List.length vx <= List.length vz ->
    let run := saxpy.for_loop_saxpy_by_reference axpy a x y z in
    fst (run m) = Returns tt
    /\ nth_error (snd (run m)) z
       = Some (map (fun xy => axpy a (fst xy) (snd xy)) (combine vx vy)
               ++ skipn (List.length vx) vz)
    /\ (forall p, p <> z -> nth_error (snd (run m)) p = nth_error m p)
    /\ run (snd (run m)) = run m.
Proof.
  intros float axpy a x y z m vx vy vz Hx Hy Hz Hzx Hzy Hlen_y Hlen_z run.
  subst run. unfold saxpy.for_loop_saxpy_by_reference. rewrite Hx.
  destruct (@by_reference_loop float axpy a x y z vx vy Hzx Hzy Hlen_y
              (List.length vx) 0 m vz Hx Hy Hz eq_refl Hlen_z)
    as (m1 & Hm1 & Hloop).
  fold (saxpy.for_loop_saxpy axpy a vx vy vz) in Hm1.
  rewrite Hloop. cbn [fst snd].
  pose proof (@vector_assign_reads_back _ z _ m m1 Hm1) as Hz1.
  assert (Hx1 : nth_error m1 x = Some vx)
    by (rewrite (@vector_assign_elsewhere _ z x _ m m1 Hm1); auto).
  assert (Hy1 : nth_error m1 y = Some vy)
    by (rewrite (@vector_assign_elsewhere _ z y _ m m1 Hm1); auto).
  repeat split.
  - rewrite Hz1. now rewrite for_loop_saxpy_run.
  - intros p Hp. exact (@vector_assign_elsewhere _ z p _ m m1 Hm1 Hp).
  - rewrite Hx1.
    destruct (@by_reference_loop float axpy a x y z vx vy Hzx Hzy Hlen_y
                (List.length vx) 0 m1 _ Hx1 Hy1 Hz1 eq_refl)
      as (m2 & Hm2 & Hagain).
    + rewrite for_loop_saxpy_run by assumption. cbn [snd].
      rewrite length_app, length_written, length_skipn by assumption. lia.
    + rewrite Hagain. f_equal.
      fold (saxpy.for_loop_saxpy axpy a vx vy
              (snd (saxpy.for_loop_saxpy axpy a vx vy vz))) in Hm2.
      rewrite for_loop_saxpy_twice in Hm2 by assumption.
      rewrite (vector_assign_same _ _ Hz1) in Hm2. now inversion Hm2.
Qed.

Lemma for_loop_saxpy_idempotent_on_distinct_vectors_witness :
  let run := saxpy.for_loop_saxpy_by_reference
               (fun a xi yi => a * xi + yi)%Z 42%Z 0 1 2 in
  run (snd (run [[7; 7]; [13; 13]; [0; 0; 9]]%Z))
  = run [[7; 7]; [13; 13]; [0; 0; 9]]%Z.
Proof.
  apply (@for_loop_saxpy_idempotent_on_distinct_vectors Z
           (fun a xi yi => a * xi + yi)%Z 42%Z 0 1 2
           [[7; 7]; [13; 13]; [0; 0; 9]]%Z [7; 7]%Z [13; 13]%Z [0; 0; 9]%Z);
    try reflexivity; try discriminate; simpl; lia.
Defined.

(** With [z] and [x] one vector the second run starts from what the first
    one wrote: [for_loop_saxpy(42, v, y, v)] on [v = {7, 7}] and
    [y = {13, 13}] leaves 307 in [v] and then 12907. *)
Example for_loop_saxpy_on_aliased_vectors :
  let run := saxpy.for_loop_saxpy_by_reference
               (fun a xi yi => a * xi + yi)%Z 42%Z 0 1 0 in
  run [[7; 7]; [13; 13]]%Z = (Returns tt, [[307; 307]; [13; 13]]%Z)
  /\ run [[307; 307]; [13; 13]]%Z = (Returns tt, [[12907; 12907]; [13; 13]]%Z).
Proof.
  split; reflexivity.
Qed.
